(** * dynamicsutilities.dtex: equation display helper

    A shallow embedding of [dtex] from [dynamicsutilities.py] and the
    properties of the string it hands to the notebook display.

    Python [str] values are modelled by [string]; the only operations the
    function uses (concatenation, formatting a value into an f-string and
    the slice [tex[:-10]]) act on character counts, so the alphabet plays
    no part.  The two external collaborators, [mlatex] (symbolic expression
    to LaTeX source) and [display] (notebook output), are parameters of the
    development. *)

From Stdlib Require Import String Ascii List Arith Lia Bool.
Import ListNotations.
Open Scope string_scope.

(** ** Python string operations used by [dtex] *)

Module PyStr.

(** [s[:-k]] for a literal [k > 0]: the stop index [len(s) - k] is
    clamped at [0], so a string shorter than [k] yields the empty string.
    The truncated subtraction of [nat] is that clamp. *)
Definition slice_until_neg (k : nat) (s : string) : string :=
  substring 0 (String.length s - k) s.

(** [sep.join(parts)] is [String.concat sep parts]. *)
Definition join (sep : string) (parts : list string) : string :=
  String.concat sep parts.

(** Number of (possibly overlapping) places where [pat] occurs in [s]. *)
Fixpoint occurrences (pat s : string) : nat :=
  match s with
  | EmptyString => 0
  | String _ rest =>
      (if prefix pat s then 1 else 0) + occurrences pat rest
  end.

(** [c not in s] for a single character [c]. *)
Fixpoint lacks (c : ascii) (s : string) : bool :=
  match s with
  | EmptyString => true
  | String d rest => negb (Ascii.eqb c d) && lacks c rest
  end.

End PyStr.

(** ** A small concrete notebook

  Closed examples need concrete collaborators.  [sym] stands for the
  non-text values a caller may pass: [Sym n] is an expression the
  converter prints as [n], [Unprintable] a value it has no printer for.  The
  display of this notebook accepts every markup. *)

Module Demo.

Inductive sym : Type :=
| Sym (name : string)
| Unprintable.

Definition mlatex (e : sym) : string + string :=
  match e with
  | Sym n => inr n
  | Unprintable => inl "no printer"
  end.

Definition display_raises (tex : string) : option string := None.

(** A session without an output area: its display raises on any markup. *)
Definition display_unavailable (tex : string) : option string :=
  Some "no output context".

End Demo.

(** ** Values, exceptions and the notebook *)

Section Dtex.

(** Python values that are not [str] instances, and exceptions. *)
Context {Obj Exn : Type}.

(** [mlatex(arg)]: either raises or returns LaTeX source. *)
Variable mlatex : Obj -> Exn + string.

(** [display(Latex(tex))]: [Some e] when the display facility raises [e]
    for this markup, [None] when it renders it. *)
Variable display_raises : string -> option Exn.

(** A positional argument, split the way [isinstance(arg, str)] does. *)
Inductive arg : Type :=
| PyText (s : string)
| PyOther (o : Obj).

(** The one observable effect: a call of [display] on [Latex(tex)]. *)
Inductive event : Type :=
| DisplayLatex (tex : string).

(** How a call ends: it returns a value or an exception escapes. *)
Inductive outcome (A : Type) : Type :=
| Returned (a : A)
| Raised (e : Exn).
Arguments Returned {A} a.
Arguments Raised {A} e.

(** The value [None], all that a function without [return] gives back. *)
Inductive pynone : Type := PyNone.

(** Computations: the log of display calls made so far is threaded
    through, and an exception stops the rest of the computation while
    the log made up to that point stays. *)
Definition M (A : Type) : Type := list event -> outcome A * list event.

Definition ret {A} (a : A) : M A := fun log => (Returned a, log).

Definition raise {A} (e : Exn) : M A := fun log => (Raised e, log).

Definition bind {A B} (m : M A) (k : A -> M B) : M B :=
  fun log =>
    match m log with
    | (Returned a, log') => k a log'
    | (Raised e, log') => (Raised e, log')
    end.

Notation "x <- m ;; k" := (bind m (fun x => k))
  (at level 61, m at next level, right associativity).

(** The external calls, lifted into [M]. *)
Definition call_mlatex (o : Obj) : M string :=
  match mlatex o with
  | inl e => raise e
  | inr s => ret s
  end.

(** [display] is entered, and recorded, whether or not it then raises. *)
Definition display_outcome (tex : string) : outcome pynone :=
  match display_raises tex with
  | Some e => Raised e
  | None => Returned PyNone
  end.

Definition call_display (tex : string) : M pynone :=
  fun log => (display_outcome tex, (log ++ [DisplayLatex tex])%list).

(** ** The function *)

(** One turn of the [for] loop: the text appended to [tex]. *)
Definition dtex_piece (a : arg) : M string :=
  match a with
  | PyText s =>
      (* f'${arg}$ $\, = \,$ ' *)
      ret ("$" ++ s ++ "$ $\, = \,$ ")
  | PyOther o =>
      (* f'${mlatex(arg)}$ $\, = \,$ ' *)
      m <- call_mlatex o ;;
      ret ("$" ++ m ++ "$ $\, = \,$ ")
  end.

(** [for arg in args: tex += ...], from the current value of [tex]. *)
Fixpoint dtex_loop (args : list arg) (tex : string) : M string :=
  match args with
  | [] => ret tex
  | a :: rest =>
      piece <- dtex_piece a ;;
      dtex_loop rest (tex ++ piece)
  end.

Definition dtex (args : list arg) : M pynone :=
  tex <- dtex_loop args "" ;;
  let tex := PyStr.slice_until_neg 10 tex in
  call_display tex.

(** A call from a notebook in which nothing was displayed yet. *)
Definition run_dtex (args : list arg) : outcome pynone * list event :=
  dtex args [].

(** ** Vocabulary of the specification *)

(** The text between two terms: a spaced equals sign in math mode. *)
Definition separator : string := " $\, = \,$ ".

(** A rendering wrapped in math delimiters. *)
Definition fragment (r : string) : string := "$" ++ r ++ "$".

(** The fragments joined pairwise by the separator, nothing after the
    last one. *)
Definition equation (rs : list string) : string :=
  PyStr.join separator (map fragment rs).

(** What the loop puts between the delimiters for an argument, or the
    exception its conversion raises. *)
Definition conversion (a : arg) : Exn + string :=
  match a with
  | PyText s => inr s
  | PyOther o => mlatex o
  end.

(** All conversions succeed, with these results in argument order. *)
Fixpoint renderings (args : list arg) : option (list string) :=
  match args with
  | [] => Some []
  | a :: rest =>
      match conversion a, renderings rest with
      | inr r, Some rs => Some (r :: rs)
      | _, _ => None
      end
  end.

(** The exception of the first argument, in order, whose conversion
    fails. *)
Fixpoint first_failure (args : list arg) : option Exn :=
  match args with
  | [] => None
  | a :: rest =>
      match conversion a with
      | inl e => Some e
      | inr _ => first_failure rest
      end
  end.

(** The equals sign with its thin spaces, as the separator typesets it
    between its own two delimiters. *)
Definition equals_sign : string := "\, = \,".

(** Everything the loop has appended to [tex] once the renderings [rs]
    went through it: each fragment with the text that follows it. *)
Definition appended (rs : list string) : string :=
  fold_right (fun r acc => ("$" ++ r ++ "$ $\, = \,$ ") ++ acc) "" rs.

(** The markup left for the renderings [rs] once the slice is taken. *)
Definition shown (rs : list string) : string :=
  PyStr.slice_until_neg 10 (appended rs).

(** What follows a fragment in the displayed markup: the separator and
    the later terms, or the end of the markup. *)
Definition after_fragment (later : list string) : string :=
  match later with
  | [] => " "
  | _ :: _ => separator ++ shown later
  end.

(** The markups shown by a call, oldest first. *)
Definition displayed (r : outcome pynone * list event) : list string :=
  map (fun ev => match ev with DisplayLatex tex => tex end) (snd r).

(** ** Facts about strings *)

Lemma str_app_assoc (a b c : string) : (a ++ b) ++ c = a ++ (b ++ c).
Proof.
  induction a as [|ch a IH]; simpl; [reflexivity | now rewrite IH].
Qed.

Lemma str_app_empty_r (a : string) : a ++ "" = a.
Proof.
  induction a as [|ch a IH]; simpl; [reflexivity | now rewrite IH].
Qed.

Lemma str_length_app (a b : string) :
  String.length (a ++ b) = String.length a + String.length b.
Proof.
  induction a as [|ch a IH]; simpl; [reflexivity | now rewrite IH].
Qed.

Lemma substring_whole_prefix (a b : string) :
  substring 0 (String.length a) (a ++ b) = a.
Proof.
  induction a as [|ch a IH]; simpl.
  - now destruct b.
  - now rewrite IH.
Qed.

(** Slicing off exactly the characters that were appended last. *)
Lemma slice_until_neg_app (k : nat) (a b : string) :
  String.length b = k -> PyStr.slice_until_neg k (a ++ b) = a.
Proof.
  intros Hb. unfold PyStr.slice_until_neg.
  rewrite str_length_app, Hb, Nat.add_sub.
  apply substring_whole_prefix.
Qed.

(** A string no longer than the cut is sliced to nothing. *)
Lemma slice_until_neg_short (k : nat) (a : string) :
  String.length a <= k -> PyStr.slice_until_neg k a = "".
Proof.
  intros Hle. unfold PyStr.slice_until_neg.
  replace (String.length a - k) with 0 by lia.
  now destruct a.
Qed.

Lemma prefix_app (a b : string) : prefix a (a ++ b) = true.
Proof.
  induction a as [|ch a IH]; simpl.
  - now destruct b.
  - destruct (ascii_dec ch ch) as [_|Hne]; [exact IH | now elim Hne].
Qed.

(** ** The loop *)

Lemma piece_shape (r : string) :
  "$" ++ r ++ "$ $\, = \,$ " = fragment r ++ separator.
Proof.
  unfold fragment, separator.
  change ("$" ++ r ++ "$ $\, = \,$ ")
    with ("$" ++ r ++ "$" ++ " $\, = \,$ ").
  now rewrite <- !str_app_assoc.
Qed.

Lemma appended_cons (r : string) (rs : list string) :
  appended (r :: rs) = (fragment r ++ separator) ++ appended rs.
Proof.
  change (appended (r :: rs))
    with (("$" ++ r ++ "$ $\, = \,$ ") ++ appended rs).
  now rewrite piece_shape.
Qed.

(** With at least one term, the loop leaves the equation followed by
    one separator. *)
Lemma appended_equation (r : string) (rs : list string) :
  appended (r :: rs) = equation (r :: rs) ++ separator.
Proof.
  revert r. induction rs as [|r' rs IH]; intros r.
  - rewrite appended_cons. simpl. now rewrite str_app_empty_r.
  - rewrite appended_cons, IH.
    unfold equation, PyStr.join. simpl map.
    change (String.concat separator (fragment r :: fragment r' :: map fragment rs))
      with (fragment r ++ separator
              ++ String.concat separator (fragment r' :: map fragment rs)).
    now rewrite !str_app_assoc.
Qed.

Lemma dtex_piece_ok (a : arg) (r : string) (log : list event) :
  conversion a = inr r ->
  dtex_piece a log = (Returned ("$" ++ r ++ "$ $\, = \,$ "), log).
Proof.
  destruct a as [s|o]; simpl; intros H.
  - now inversion H.
  - unfold bind, call_mlatex. now rewrite H.
Qed.

Lemma dtex_piece_raises (a : arg) (e : Exn) (log : list event) :
  conversion a = inl e -> dtex_piece a log = (Raised e, log).
Proof.
  destruct a as [s|o]; simpl; intros H.
  - discriminate.
  - unfold bind, call_mlatex. now rewrite H.
Qed.

Lemma dtex_loop_ok (args : list arg) :
  forall rs tex log,
    renderings args = Some rs ->
    dtex_loop args tex log = (Returned (tex ++ appended rs), log).
Proof.
  induction args as [|a rest IH]; intros rs tex log Hrs; simpl in Hrs.
  - inversion Hrs; subst. simpl. unfold ret. now rewrite str_app_empty_r.
  - destruct (conversion a) as [e|r] eqn:Ha; [discriminate|].
    destruct (renderings rest) as [rs'|] eqn:Hrest; [|discriminate].
    inversion Hrs; subst. cbn [dtex_loop]. unfold bind.
    rewrite (dtex_piece_ok _ _ _ Ha), (IH rs' _ _ eq_refl).
    now rewrite str_app_assoc.
Qed.

Lemma dtex_loop_raises (args : list arg) :
  forall e tex log,
    first_failure args = Some e ->
    dtex_loop args tex log = (Raised e, log).
Proof.
  induction args as [|a rest IH]; intros e tex log Hf; simpl in Hf.
  - discriminate.
  - cbn [dtex_loop]. unfold bind.
    destruct (conversion a) as [e'|r] eqn:Ha.
    + inversion Hf; subst. now rewrite (dtex_piece_raises _ _ _ Ha).
    + now rewrite (dtex_piece_ok _ _ _ Ha), (IH _ _ _ Hf).
Qed.

(** Either every conversion succeeds or there is a first failure. *)
Lemma renderings_or_failure (args : list arg) :
  (exists rs, renderings args = Some rs /\ first_failure args = None)
  \/ (exists e, renderings args = None /\ first_failure args = Some e).
Proof.
  induction args as [|a rest IH]; simpl.
  - left. now exists [].
  - destruct (conversion a) as [e|r].
    + right. now exists e.
    + destruct IH as [[rs [-> ->]]|[e [-> ->]]].
      * left. now exists (r :: rs).
      * right. now exists e.
Qed.

Lemma renderings_length (args : list arg) :
  forall rs, renderings args = Some rs -> List.length rs = List.length args.
Proof.
  induction args as [|a rest IH]; intros rs H; simpl in H.
  - now inversion H.
  - destruct (conversion a); [discriminate|].
    destruct (renderings rest) as [rs'|]; [|discriminate].
    inversion H; subst. simpl. now rewrite (IH rs').
Qed.

Lemma renderings_app (pre post : list arg) (rp rq : list string) :
  renderings pre = Some rp -> renderings post = Some rq ->
  renderings (pre ++ post) = Some (rp ++ rq)%list.
Proof.
  revert rp. induction pre as [|a pre IH]; intros rp Hp Hq; simpl in *.
  - now inversion Hp.
  - destruct (conversion a); [discriminate|].
    destruct (renderings pre) as [rs'|]; [|discriminate].
    inversion Hp; subst. now rewrite (IH rs' eq_refl Hq).
Qed.

Lemma first_failure_app (pre post : list arg) (rp : list string) :
  renderings pre = Some rp ->
  first_failure (pre ++ post) = first_failure post.
Proof.
  revert rp. induction pre as [|a pre IH]; intros rp Hp; simpl in *.
  - reflexivity.
  - destruct (conversion a); [discriminate|].
    destruct (renderings pre) as [rs'|]; [|discriminate].
    now apply (IH rs').
Qed.

Lemma first_failure_in (args : list arg) (o : Obj) (e : Exn) :
  In (PyOther o) args -> mlatex o = inl e ->
  exists e', first_failure args = Some e'.
Proof.
  induction args as [|a rest IH]; intros Hin Ho; simpl in *.
  - contradiction.
  - destruct (conversion a) as [e'|r] eqn:Ha; [now exists e'|].
    destruct Hin as [->|Hin].
    + simpl in Ha. congruence.
    + now apply IH.
Qed.

(** ** The whole call *)

Lemma shown_nil : shown [] = "".
Proof. reflexivity. Qed.

Lemma shown_cons (r : string) (rs : list string) :
  shown (r :: rs) = equation (r :: rs) ++ " ".
Proof.
  unfold shown. rewrite appended_equation.
  change separator with (" " ++ "$\, = \,$ ").
  rewrite <- str_app_assoc.
  now apply slice_until_neg_app.
Qed.

Lemma dtex_ok (args : list arg) (rs : list string) (log : list event) :
  renderings args = Some rs ->
  dtex args log
  = (display_outcome (shown rs), (log ++ [DisplayLatex (shown rs)])%list).
Proof.
  intros Hrs. unfold dtex, bind.
  now rewrite (dtex_loop_ok _ _ _ _ Hrs).
Qed.

Lemma dtex_raises (args : list arg) (e : Exn) (log : list event) :
  first_failure args = Some e -> dtex args log = (Raised e, log).
Proof.
  intros Hf. unfold dtex, bind.
  now rewrite (dtex_loop_raises _ _ _ _ Hf).
Qed.

Lemma displayed_ok (args : list arg) (rs : list string) :
  renderings args = Some rs -> displayed (run_dtex args) = [shown rs].
Proof.
  intros Hrs. unfold run_dtex. now rewrite (dtex_ok _ _ _ Hrs).
Qed.

Lemma str_app_space_neq (a : string) : a ++ " " <> a.
Proof.
  intros H. apply (f_equal String.length) in H.
  rewrite str_length_app in H. simpl in H. lia.
Qed.

Lemma equation_cons_cons (r r' : string) (rs : list string) :
  equation (r :: r' :: rs) = fragment r ++ separator ++ equation (r' :: rs).
Proof. reflexivity. Qed.

Lemma shown_cons_cons (r r' : string) (rs : list string) :
  shown (r :: r' :: rs) = (fragment r ++ separator) ++ shown (r' :: rs).
Proof.
  rewrite !shown_cons, equation_cons_cons. now rewrite !str_app_assoc.
Qed.

(** The markup around the fragment of any one term. *)
Lemma shown_middle (rp : list string) (r : string) (rq : list string) :
  shown (rp ++ r :: rq)
  = appended rp ++ fragment r ++ after_fragment rq.
Proof.
  induction rp as [|r0 rp IH].
  - destruct rq as [|r' rq]; simpl app; unfold after_fragment.
    + now rewrite shown_cons.
    + rewrite shown_cons_cons. now rewrite str_app_assoc.
  - rewrite appended_cons.
    assert (Hstep : shown ((r0 :: rp) ++ r :: rq)
                    = (fragment r0 ++ separator) ++ shown (rp ++ r :: rq)).
    { destruct rp; apply shown_cons_cons. }
    rewrite Hstep, IH. now rewrite !str_app_assoc.
Qed.

Lemma equation_contains (rs : list string) (r : string) :
  In r rs -> exists a b, equation rs = a ++ fragment r ++ b.
Proof.
  intros Hin. apply in_split in Hin. destruct Hin as [rp [rq ->]].
  assert (H : shown (rp ++ r :: rq) = equation (rp ++ r :: rq) ++ " ").
  { destruct rp; apply shown_cons. }
  rewrite shown_middle in H.
  destruct rq as [|r' rq]; unfold after_fragment in H.
  - exists (appended rp), "". rewrite str_app_empty_r.
    rewrite <- !str_app_assoc in H.
    apply (f_equal (PyStr.slice_until_neg 1)) in H.
    now rewrite !slice_until_neg_app in H.
  - exists (appended rp), (separator ++ equation (r' :: rq)).
    rewrite shown_cons, <- !str_app_assoc in H.
    apply (f_equal (PyStr.slice_until_neg 1)) in H.
    rewrite !slice_until_neg_app in H by reflexivity.
    now rewrite <- H, !str_app_assoc.
Qed.

(** A call ends in one of two ways: every conversion succeeded and
    [display] was entered once, or the first failing conversion's
    exception escaped and the log is as it was. *)
Corollary dtex_ends (args : list arg) (log : list event) :
  (exists tex,
      dtex args log
      = (display_outcome tex, (log ++ [DisplayLatex tex])%list))
  \/ (exists e, first_failure args = Some e /\ dtex args log = (Raised e, log)).
Proof.
  destruct (renderings_or_failure args) as [[rs [Hrs _]]|[e [_ He]]].
  - left. exists (shown rs). now apply dtex_ok.
  - right. exists e. split; [exact He | now apply dtex_raises].
Qed.

(** ** Counting separators *)

Lemma occurrences_skip (c : ascii) (s : string) :
  c <> " "%char ->
  PyStr.occurrences separator (String c s) = PyStr.occurrences separator s.
Proof.
  intros Hc. cbn [PyStr.occurrences]. unfold separator at 1. cbn [prefix].
  destruct (ascii_dec " " c) as [Heq|_]; [congruence | reflexivity].
Qed.

Lemma lacks_cons (c d : ascii) (s : string) :
  PyStr.lacks c (String d s) = true -> d <> c /\ PyStr.lacks c s = true.
Proof.
  cbn [PyStr.lacks]. intros H. apply andb_prop in H. destruct H as [Hd Hs].
  split; [|exact Hs]. intros ->. now rewrite Ascii.eqb_refl in Hd.
Qed.

Lemma occurrences_skip_spaceless (r rest : string) :
  PyStr.lacks " " r = true ->
  PyStr.occurrences separator (r ++ rest) = PyStr.occurrences separator rest.
Proof.
  induction r as [|c r IH]; intros Hr; [reflexivity|].
  apply lacks_cons in Hr. destruct Hr as [Hc Hr].
  change (String c r ++ rest) with (String c (r ++ rest)).
  rewrite occurrences_skip by exact Hc. now apply IH.
Qed.

Lemma prefix_cons_same (c : ascii) (p s : string) :
  prefix (String c p) (String c s) = prefix p s.
Proof.
  cbn [prefix]. destruct (ascii_dec c c) as [_|Hne]; [reflexivity | now elim Hne].
Qed.

Lemma prefix_cons_diff (c d : ascii) (p s : string) :
  c <> d -> prefix (String c p) (String d s) = false.
Proof.
  intros Hne. cbn [prefix].
  destruct (ascii_dec c d) as [Heq|_]; [now elim Hne | reflexivity].
Qed.

(** The space that ends one separator never starts another one: what
    follows it is a fragment, and a fragment without a space cannot
    spell the rest of the separator. *)
Lemma separator_not_into_fragment (r rest : string) :
  PyStr.lacks " " r = true ->
  prefix separator (" " ++ fragment r ++ rest) = false.
Proof.
  intros Hr. unfold separator, fragment. cbn [append].
  rewrite !prefix_cons_same.
  destruct r as [|c1 r]; cbn [append].
  { apply prefix_cons_diff. discriminate. }
  apply lacks_cons in Hr. destruct Hr as [_ Hr].
  destruct (ascii_dec "\" c1) as [<-|Hne]; [|now apply prefix_cons_diff].
  rewrite prefix_cons_same.
  destruct r as [|c2 r]; cbn [append].
  { apply prefix_cons_diff. discriminate. }
  apply lacks_cons in Hr. destruct Hr as [_ Hr].
  destruct (ascii_dec "," c2) as [<-|Hne]; [|now apply prefix_cons_diff].
  rewrite prefix_cons_same.
  destruct r as [|c3 r]; cbn [append].
  { apply prefix_cons_diff. discriminate. }
  apply lacks_cons in Hr. destruct Hr as [Hc3 _].
  apply prefix_cons_diff. congruence.
Qed.

Lemma occurrences_fragment (r rest : string) :
  PyStr.lacks " " r = true ->
  PyStr.occurrences separator (fragment r ++ rest)
  = PyStr.occurrences separator rest.
Proof.
  intros Hr. unfold fragment. rewrite !str_app_assoc. cbn [append].
  rewrite occurrences_skip by discriminate.
  rewrite occurrences_skip_spaceless by exact Hr.
  now rewrite occurrences_skip by discriminate.
Qed.

(** A separator counts once, and nothing inside it starts another
    one; only the space that ends it is left to look at. *)
Lemma occurrences_separator_app (rest : string) :
  PyStr.occurrences separator (separator ++ rest)
  = S (PyStr.occurrences separator (" " ++ rest)).
Proof.
  change (separator ++ rest)
    with (String " " ("$\, = \,$" ++ String " " rest)).
  cbn [PyStr.occurrences].
  change (String " " ("$\, = \,$" ++ String " " rest))
    with (separator ++ rest).
  rewrite prefix_app.
  change (" " ++ rest) with (String " " rest).
  generalize (String " " rest) as tail. intros tail. reflexivity.
Qed.

Lemma occurrences_separator_fragment (r rest : string) :
  PyStr.lacks " " r = true ->
  PyStr.occurrences separator (separator ++ fragment r ++ rest)
  = S (PyStr.occurrences separator rest).
Proof.
  intros Hr. rewrite occurrences_separator_app. f_equal.
  change (" " ++ fragment r ++ rest) with (String " " (fragment r ++ rest)).
  cbn [PyStr.occurrences].
  change (String " " (fragment r ++ rest)) with (" " ++ fragment r ++ rest).
  rewrite (separator_not_into_fragment _ _ Hr).
  now rewrite occurrences_fragment.
Qed.

(** With renderings that hold no space, the displayed markup holds one
    separator less than it holds terms. *)
Lemma occurrences_shown (r : string) (rs : list string) :
  forallb (PyStr.lacks " ") (r :: rs) = true ->
  PyStr.occurrences separator (shown (r :: rs)) = List.length rs.
Proof.
  revert r. induction rs as [|r' rs IH]; intros r Hall.
  - cbn [forallb] in Hall. apply andb_prop in Hall. destruct Hall as [Hr _].
    rewrite shown_cons. unfold equation, PyStr.join. cbn [map String.concat].
    now rewrite occurrences_fragment.
  - cbn [forallb] in Hall. apply andb_prop in Hall. destruct Hall as [Hr Hall].
    assert (Hr' : PyStr.lacks " " r' = true).
    { cbn [forallb] in Hall. now apply andb_prop in Hall. }
    rewrite shown_cons_cons, str_app_assoc.
    rewrite occurrences_fragment by exact Hr.
    rewrite (shown_middle [] r' rs) at 1.
    change (appended [] ++ fragment r' ++ after_fragment rs)
      with (fragment r' ++ after_fragment rs).
    rewrite occurrences_separator_fragment by exact Hr'.
    rewrite <- (occurrences_fragment r' (after_fragment rs) Hr').
    change (fragment r' ++ after_fragment rs)
      with (appended [] ++ fragment r' ++ after_fragment rs).
    rewrite <- (shown_middle [] r' rs).
    cbn [List.length]. f_equal. now apply IH.
Qed.

(** *** Separators among renderings that may hold spaces *)

Lemma str_app_inv_head (a b c : string) : a ++ b = a ++ c -> b = c.
Proof.
  induction a as [|ch a IH]; simpl; intros H; [exact H|].
  inversion H. now apply IH.
Qed.

(** The first dollar sign after a rendering without one is the closing
    delimiter, so it marks where the rendering ends. *)
Lemma closing_delimiter_found (r r' rest rest' : string) :
  PyStr.lacks "$" r = true ->
  PyStr.lacks "$" r' = true ->
  r ++ String "$" rest = r' ++ String "$" rest' ->
  r = r' /\ rest = rest'.
Proof.
  revert r'. induction r as [|c r IH]; intros [|c' r'] Hr Hr' Heq;
    cbn [append] in Heq.
  - inversion Heq. now split.
  - inversion Heq; subst c'. apply lacks_cons in Hr'. now destruct Hr'.
  - inversion Heq; subst c. apply lacks_cons in Hr. now destruct Hr.
  - inversion Heq; subst c'.
    apply lacks_cons in Hr. apply lacks_cons in Hr'.
    destruct (IH r' (proj2 Hr) (proj2 Hr') H1) as [-> ->]. now split.
Qed.

Lemma prefix_split (p s : string) :
  prefix p s = true -> exists rest, s = p ++ rest.
Proof.
  revert s. induction p as [|c p IH]; intros s Hp.
  - now exists s.
  - destruct s as [|d s]; [discriminate Hp|]. cbn [prefix] in Hp.
    destruct (ascii_dec c d) as [<-|_]; [|discriminate Hp].
    destruct (IH s Hp) as [rest ->]. now exists rest.
Qed.

Lemma separator_shape : separator = " $" ++ equals_sign ++ "$ ".
Proof. reflexivity. Qed.

(** The space that ends one separator starts another one only when the
    fragment after it holds the very text of the equals sign. *)
Lemma separator_needs_equals_sign (r rest : string) :
  PyStr.lacks "$" r = true ->
  prefix separator (" " ++ fragment r ++ rest) = true ->
  r = equals_sign.
Proof.
  intros Hr Hp. unfold fragment in Hp. rewrite !str_app_assoc in Hp.
  rewrite separator_shape in Hp. cbn [append] in Hp.
  rewrite !prefix_cons_same in Hp.
  change (String "\" (String "," (String " " (String "=" (String " "
            (String "\" (String "," (String "$" " "))))))))
    with (equals_sign ++ String "$" " ") in Hp.
  apply prefix_split in Hp. destruct Hp as [tail Htail].
  rewrite str_app_assoc in Htail. cbn [append] in Htail.
  now destruct (closing_delimiter_found r equals_sign _ _ Hr eq_refl Htail).
Qed.

(** No separator starts inside a rendering without a dollar sign, nor at
    the delimiter that closes it. *)
Lemma occurrences_skip_rendering (r tail : string) :
  PyStr.lacks "$" r = true ->
  PyStr.occurrences separator (r ++ String "$" (String " " tail))
  = PyStr.occurrences separator (String " " tail).
Proof.
  induction r as [|c r IH]; intros Hr.
  - cbn [append]. now rewrite occurrences_skip by discriminate.
  - apply lacks_cons in Hr. destruct Hr as [_ Hr].
    cbn [append PyStr.occurrences]. rewrite (IH Hr).
    assert (Hno : prefix separator
                    (String c (r ++ String "$" (String " " tail))) = false).
    { unfold separator. destruct (ascii_dec " " c) as [<-|Hc];
        [|now apply prefix_cons_diff].
      rewrite prefix_cons_same.
      destruct r as [|c2 r]; cbn [append].
      - rewrite prefix_cons_same. apply prefix_cons_diff. discriminate.
      - apply prefix_cons_diff. apply lacks_cons in Hr.
        destruct Hr as [Hc2 _]. congruence. }
    now rewrite Hno.
Qed.

Lemma occurrences_fragment_dollar_free (r rest tail : string) :
  PyStr.lacks "$" r = true ->
  rest = String " " tail ->
  PyStr.occurrences separator (fragment r ++ rest)
  = PyStr.occurrences separator rest.
Proof.
  intros Hr ->. unfold fragment. rewrite !str_app_assoc. cbn [append].
  rewrite occurrences_skip by discriminate.
  now apply occurrences_skip_rendering.
Qed.

Lemma after_fragment_space (rs : list string) :
  exists tail, after_fragment rs = String " " tail.
Proof.
  destruct rs as [|r rs]; unfold after_fragment.
  - now exists "".
  - unfold separator. cbn [append]. eauto.
Qed.

(** With renderings that hold no dollar sign, none after the first being
    the text of the equals sign, the displayed markup holds one separator
    less than it holds terms. *)
Lemma occurrences_shown_dollar_free (r : string) (rs : list string) :
  forallb (PyStr.lacks "$") (r :: rs) = true ->
  Forall (fun x => x <> equals_sign) rs ->
  PyStr.occurrences separator (shown (r :: rs)) = List.length rs.
Proof.
  revert r. induction rs as [|r' rs IH]; intros r Hall Hne;
    cbn [forallb] in Hall; apply andb_prop in Hall; destruct Hall as [Hr Hall].
  - rewrite shown_cons. unfold equation, PyStr.join. cbn [map String.concat].
    now rewrite (occurrences_fragment_dollar_free r " " "" Hr eq_refl).
  - inversion Hne as [|x l Hr'ne Hne']; subst.
    assert (Hr' : PyStr.lacks "$" r' = true).
    { cbn [forallb] in Hall. now apply andb_prop in Hall. }
    rewrite shown_cons_cons, str_app_assoc.
    rewrite (occurrences_fragment_dollar_free r
               (separator ++ shown (r' :: rs))
               ("$\, = \,$ " ++ shown (r' :: rs)) Hr eq_refl).
    rewrite occurrences_separator_app.
    cbn [append PyStr.occurrences].
    assert (Hno : prefix separator (String " " (shown (r' :: rs))) = false).
    { destruct (prefix separator (String " " (shown (r' :: rs)))) eqn:Hp;
        [|reflexivity].
      change (shown (r' :: rs)) with (shown ([] ++ r' :: rs)%list) in Hp.
      rewrite (shown_middle [] r' rs) in Hp.
      change (String " " (appended [] ++ fragment r' ++ after_fragment rs))
        with (" " ++ fragment r' ++ after_fragment rs) in Hp.
      now apply separator_needs_equals_sign in Hp. }
    rewrite Hno. cbn [Nat.add List.length]. f_equal. now apply IH.
Qed.

(** *** Counting delimiters *)

(** *** Reading the terms back *)

Lemma shown_cons_head (r : string) (rs : list string) :
  shown (r :: rs) = String "$" (r ++ String "$" (after_fragment rs)).
Proof.
  change (shown (r :: rs)) with (shown ([] ++ r :: rs)%list).
  rewrite (shown_middle [] r rs). unfold fragment.
  cbn [appended fold_right append]. now rewrite str_app_assoc.
Qed.

(** *** Counting delimiters *)

Lemma occurrences_dollar_cons (c : ascii) (s : string) :
  PyStr.occurrences "$" (String c s)
  = (if Ascii.eqb "$" c then 1 else 0) + PyStr.occurrences "$" s.
Proof.
  cbn [PyStr.occurrences prefix].
  destruct (ascii_dec "$" c) as [<-|Hne].
  - now destruct s.
  - apply Ascii.eqb_neq in Hne. now rewrite Hne.
Qed.

Lemma occurrences_dollar_lacks (r rest : string) :
  PyStr.lacks "$" r = true ->
  PyStr.occurrences "$" (r ++ rest) = PyStr.occurrences "$" rest.
Proof.
  induction r as [|c r IH]; intros Hr; [reflexivity|].
  cbn [append]. rewrite occurrences_dollar_cons.
  cbn [PyStr.lacks] in Hr. apply andb_prop in Hr. destruct Hr as [Hc Hr].
  apply negb_true_iff in Hc. rewrite Hc. now apply IH.
Qed.

Lemma occurrences_dollar_separator (rest : string) :
  PyStr.occurrences "$" (separator ++ rest)
  = 2 + PyStr.occurrences "$" rest.
Proof.
  unfold separator. cbn [append]. now rewrite !occurrences_dollar_cons.
Qed.

Lemma occurrences_dollar_after (r : string) (rs : list string) :
  forallb (PyStr.lacks "$") (r :: rs) = true ->
  PyStr.occurrences "$" (shown (r :: rs)) = 4 * List.length rs + 2.
Proof.
  revert r. induction rs as [|r' rs IH]; intros r Hall;
    cbn [forallb] in Hall; apply andb_prop in Hall; destruct Hall as [Hr Hall];
    rewrite shown_cons_head, occurrences_dollar_cons;
    rewrite (occurrences_dollar_lacks _ _ Hr), occurrences_dollar_cons;
    unfold after_fragment.
  - reflexivity.
  - rewrite occurrences_dollar_separator, (IH r' Hall).
    cbn [List.length Ascii.eqb Bool.eqb]. lia.
Qed.

(** *** What a call shows, from any notebook *)

Lemma shown_nonempty (rs : list string) :
  rs <> [] -> shown rs = equation rs ++ " ".
Proof. destruct rs as [|r rs]; [congruence | intros _; apply shown_cons]. Qed.

Lemma renderings_nonempty (args : list arg) (rs : list string) :
  args <> [] -> renderings args = Some rs -> rs <> [].
Proof.
  intros Hne Hrs ->. apply renderings_length in Hrs.
  destruct args; [congruence | discriminate].
Qed.

(** ** Properties of [dtex] *)

(** C1, as the code behaves: for the two text arguments "a" and "b" the
    string handed to [display] is the two fragments joined by the
    separator and then one space, which is not the string without
    anything after the last fragment. *)
Theorem dtex_two_texts_trailing_space :
  run_dtex [PyText "a"; PyText "b"]
  = (display_outcome "$a$ $\, = \,$ $b$ ",
     [DisplayLatex "$a$ $\, = \,$ $b$ "])
  /\ displayed (run_dtex [PyText "a"; PyText "b"])
     <> ["$a$ $\, = \,$ $b$"].
Proof.
  split.
  - reflexivity.
  - intros H. vm_compute in H. discriminate H.
Qed.

(** C2, as the code behaves: for one or more arguments whose conversions
    succeed, the string handed to [display] is the renderings, each in
    its delimiters, joined pairwise by the separator, followed by one
    space; so it is never the joined fragments alone. *)
Theorem dtex_joined_then_space (args : list arg) (rs : list string) :
  args <> [] ->
  renderings args = Some rs ->
  displayed (run_dtex args) = [equation rs ++ " "]
  /\ displayed (run_dtex args) <> [equation rs].
Proof.
  intros Hne Hrs.
  assert (Hshown : shown rs = equation rs ++ " ").
  { destruct rs as [|r rs]; [|apply shown_cons].
    apply renderings_length in Hrs. destruct args; [congruence|discriminate]. }
  rewrite (displayed_ok _ _ Hrs), Hshown. split; [reflexivity|].
  intros H. inversion H as [H']. now apply str_app_space_neq in H'.
Qed.

(** C3, amended: for a single text argument no character of its
    fragment is lost, from whatever notebook the call is made.  The loop
    builds the fragment and one separator; the markup handed to
    [display] starts with the whole fragment and is a part of what the
    loop built, the slice having removed no more characters than the
    separator has; slicing by the length of the separator leaves the
    fragment and nothing else. *)
Theorem dtex_single_text_fragment_kept (s : string) (log : list event) :
  exists tex out,
    dtex_loop [PyText s] "" log = (Returned tex, log)
    /\ dtex [PyText s] log
       = (display_outcome out, (log ++ [DisplayLatex out])%list)
    /\ tex = fragment s ++ separator
    /\ out = fragment s ++ " "
    /\ prefix (fragment s) out = true
    /\ prefix out tex = true
    /\ String.length tex - String.length out <= String.length separator
    /\ PyStr.slice_until_neg (String.length separator) tex = fragment s.
Proof.
  exists (fragment s ++ separator), (fragment s ++ " ").
  assert (Hrs : renderings [PyText s] = Some [s]) by reflexivity.
  split.
  { rewrite (dtex_loop_ok _ _ _ _ Hrs), appended_equation. reflexivity. }
  split.
  { rewrite (dtex_ok _ _ _ Hrs), shown_cons. reflexivity. }
  split; [reflexivity|]. split; [reflexivity|].
  split; [apply prefix_app|]. split.
  { change separator with (" " ++ "$\, = \,$ ").
    rewrite <- str_app_assoc. apply prefix_app. }
  split.
  { rewrite !str_length_app. simpl. lia. }
  now apply slice_until_neg_app.
Qed.

(** C4, amended: for three arguments whose conversions succeed, from
    whatever notebook the call is made, the string handed to [display]
    is the three delimited fragments in argument order with one
    separator between the first and the second and one between the
    second and the third, and what comes after the third fragment holds
    neither a separator nor a delimiter.  When no rendering holds a
    dollar sign and neither the second nor the third is itself the text
    of the equals sign, the text of the separator occurs in that string
    exactly twice and the string holds exactly ten dollar signs, two for
    each fragment and two for each separator. *)
Theorem dtex_three_args
    (a b c : arg) (ra rb rc : string) (log : list event) :
  renderings [a; b; c] = Some [ra; rb; rc] ->
  exists out,
    dtex [a; b; c] log
    = (display_outcome out, (log ++ [DisplayLatex out])%list)
    /\ out = fragment ra ++ separator ++ fragment rb ++ separator
               ++ fragment rc ++ " "
    /\ (forallb (PyStr.lacks "$") [ra; rb; rc] = true ->
        rb <> equals_sign ->
        rc <> equals_sign ->
        PyStr.occurrences separator out = 2
        /\ PyStr.occurrences "$" out = 10).
Proof.
  intros Hrs. exists (shown [ra; rb; rc]).
  split; [now apply dtex_ok|]. split.
  - rewrite shown_cons. unfold equation, PyStr.join. simpl map.
    change (String.concat separator [fragment ra; fragment rb; fragment rc])
      with (fragment ra ++ separator ++ fragment rb ++ separator
              ++ fragment rc).
    now rewrite !str_app_assoc.
  - intros Hd Hb Hc. split.
    + rewrite occurrences_shown_dollar_free; [reflexivity | exact Hd |].
      repeat constructor; assumption.
    + now rewrite occurrences_dollar_after.
Qed.

(** C5: with no argument, from whatever notebook the call is made, the
    loop appends nothing, the slice of the empty string is the empty
    string, and that is handed to [display]; nothing is raised before
    [display] is entered, and the call returns [None] when [display]
    accepts the empty markup. *)
Theorem dtex_no_args (log : list event) :
  dtex_loop [] "" log = (Returned "", log)
  /\ PyStr.slice_until_neg 10 "" = ""
  /\ dtex [] log = (display_outcome "", (log ++ [DisplayLatex ""])%list)
  /\ (display_raises "" = None ->
      dtex [] log = (Returned PyNone, (log ++ [DisplayLatex ""])%list)).
Proof.
  split; [reflexivity|].
  split; [now apply slice_until_neg_short; simpl; lia|].
  assert (Hrun : dtex [] log
                 = (display_outcome "", (log ++ [DisplayLatex ""])%list)).
  { now rewrite (dtex_ok [] [] log eq_refl), shown_nil. }
  split; [exact Hrun|].
  intros Hd. rewrite Hrun. unfold display_outcome. now rewrite Hd.
Qed.

(** C6: from whatever notebook the call is made, a text argument
    appears in the markup handed to [display] as its own characters
    between two dollar signs, at its place among the other terms; what
    happens to be the converter plays no part. *)
Theorem dtex_text_argument
    (pre post : list arg) (s : string) (rp rq : list string)
    (log : list event) :
  renderings pre = Some rp ->
  renderings post = Some rq ->
  exists out,
    dtex (pre ++ PyText s :: post) log
    = (display_outcome out, (log ++ [DisplayLatex out])%list)
    /\ out = appended rp ++ ("$" ++ s ++ "$") ++ after_fragment rq.
Proof.
  intros Hp Hq.
  assert (Hall : renderings (pre ++ PyText s :: post)
                 = Some (rp ++ s :: rq)%list).
  { apply renderings_app; [exact Hp|]. simpl. now rewrite Hq. }
  exists (shown (rp ++ s :: rq)). split; [now apply dtex_ok|].
  apply shown_middle.
Qed.

(** C7: from whatever notebook the call is made, an argument that is
    not text appears in the markup handed to [display] as the
    converter's result for it between two dollar signs, at its place
    among the other terms. *)
Theorem dtex_symbolic_argument
    (pre post : list arg) (o : Obj) (m : string) (rp rq : list string)
    (log : list event) :
  mlatex o = inr m ->
  renderings pre = Some rp ->
  renderings post = Some rq ->
  exists out,
    dtex (pre ++ PyOther o :: post) log
    = (display_outcome out, (log ++ [DisplayLatex out])%list)
    /\ out = appended rp ++ ("$" ++ m ++ "$") ++ after_fragment rq.
Proof.
  intros Ho Hp Hq.
  assert (Hall : renderings (pre ++ PyOther o :: post)
                 = Some (rp ++ m :: rq)%list).
  { apply renderings_app; [exact Hp|]. simpl. now rewrite Ho, Hq. }
  exists (shown (rp ++ m :: rq)). split; [now apply dtex_ok|].
  apply shown_middle.
Qed.

(** C8: when the converter raises on some argument, the call ends with
    an exception raised by the converter (that of the first argument it
    fails on, which is this one when the arguments before it convert)
    and the log of display calls is left as it was: [display] is not
    entered. *)
Theorem dtex_conversion_failure
    (pre post : list arg) (o : Obj) (e : Exn) (log : list event) :
  mlatex o = inl e ->
  exists e',
    first_failure (pre ++ PyOther o :: post) = Some e'
    /\ dtex (pre ++ PyOther o :: post) log = (Raised e', log)
    /\ displayed (run_dtex (pre ++ PyOther o :: post)) = []
    /\ (renderings pre <> None -> e' = e).
Proof.
  intros Ho.
  destruct (first_failure_in (pre ++ PyOther o :: post) o e) as [e' He'];
    [apply in_elt | exact Ho |].
  exists e'. split; [exact He'|]. split; [now apply dtex_raises|].
  split.
  - unfold run_dtex. now rewrite (dtex_raises _ _ _ He').
  - intros Hpre. destruct (renderings pre) as [rp|] eqn:Hp; [|congruence].
    rewrite (first_failure_app _ _ _ Hp) in He'. simpl in He'.
    rewrite Ho in He'. congruence.
Qed.

(** C9: when every conversion succeeds, the call adds exactly one entry
    to the log of display calls, carrying one string, and changes
    nothing else; it ends as that display call ends, so with [None]
    as its value when the display accepts the markup. *)
Theorem dtex_displays_once
    (args : list arg) (rs : list string) (log : list event) :
  renderings args = Some rs ->
  exists tex,
    snd (dtex args log) = (log ++ [DisplayLatex tex])%list
    /\ fst (dtex args log) = display_outcome tex
    /\ (display_raises tex = None -> fst (dtex args log) = Returned PyNone).
Proof.
  intros Hrs. exists (shown rs). rewrite (dtex_ok _ _ _ Hrs). simpl.
  repeat split. intros Hd. unfold display_outcome. now rewrite Hd.
Qed.

(** C10: the text appended after each fragment is 11 characters long
    and the slice removes 10; so with one or more arguments whose
    conversions succeed, from whatever notebook the call is made, the
    loop leaves the joined fragments and one separator, and the string
    handed to [display] is the joined fragments, each of them whole, and
    exactly one space after the last closing dollar sign. *)
Theorem dtex_one_trailing_space
    (args : list arg) (rs : list string) (log : list event) :
  args <> [] ->
  renderings args = Some rs ->
  String.length separator = 11
  /\ dtex_loop args "" log = (Returned (equation rs ++ separator), log)
  /\ dtex args log
     = (display_outcome (equation rs ++ " "),
        (log ++ [DisplayLatex (equation rs ++ " ")])%list)
  /\ String.length (equation rs ++ separator)
     - String.length (equation rs ++ " ") = 10
  /\ (forall r, In r rs -> exists a b, equation rs = a ++ fragment r ++ b).
Proof.
  intros Hne Hrs.
  destruct rs as [|r rs].
  { now elim (renderings_nonempty _ _ Hne Hrs). }
  split; [reflexivity|]. split.
  { rewrite (dtex_loop_ok _ _ _ _ Hrs), appended_equation. reflexivity. }
  split.
  { now rewrite (dtex_ok _ _ _ Hrs), shown_cons. }
  split.
  { rewrite !str_length_app. simpl. lia. }
  intros r0. apply equation_contains.
Qed.

(** ** Further properties of [dtex] *)

Lemma length_substring_0 (n : nat) (s : string) :
  n <= String.length s -> String.length (substring 0 n s) = n.
Proof.
  revert n. induction s as [|c s IH]; intros [|n] Hn; simpl in *;
    try reflexivity; try lia.
  rewrite IH; [reflexivity | lia].
Qed.

Lemma length_slice_until_neg (k : nat) (s : string) :
  String.length (PyStr.slice_until_neg k s) = String.length s - k.
Proof. unfold PyStr.slice_until_neg. apply length_substring_0. lia. Qed.

Lemma length_appended (rs : list string) :
  String.length (appended rs)
  = list_sum (map String.length rs) + 13 * List.length rs.
Proof.
  induction rs as [|r rs IH]; [reflexivity|].
  rewrite appended_cons, !str_length_app, IH.
  unfold fragment, separator. rewrite !str_length_app.
  change (String.length "$") with 1.
  change (String.length " $\, = \,$ ") with 11.
  change (list_sum (map String.length (r :: rs)))
    with (String.length r + list_sum (map String.length rs)).
  cbn [List.length]. lia.
Qed.

(** X1: from whatever notebook the call is made, the markup handed to
    [display] is as long as the renderings together plus 13 characters
    for each argument (two delimiters and the 11 characters appended
    after them) less the 10 the slice removes; with no argument that is
    nothing. *)
Theorem dtex_markup_length
    (args : list arg) (rs : list string) (log : list event) :
  renderings args = Some rs ->
  exists out,
    dtex args log = (display_outcome out, (log ++ [DisplayLatex out])%list)
    /\ String.length out
       = list_sum (map String.length rs) + 13 * List.length args - 10.
Proof.
  intros Hrs. exists (shown rs). split; [now apply dtex_ok|].
  unfold shown.
  now rewrite length_slice_until_neg, length_appended,
    (renderings_length _ _ Hrs).
Qed.

(** X2: with renderings that hold no space, from whatever notebook the
    call is made, the text of the separator occurs in the markup handed
    to [display] once less than there are arguments, and not at all when
    there are none. *)
Theorem dtex_separator_count
    (args : list arg) (rs : list string) (log : list event) :
  renderings args = Some rs ->
  forallb (PyStr.lacks " ") rs = true ->
  exists out,
    dtex args log = (display_outcome out, (log ++ [DisplayLatex out])%list)
    /\ PyStr.occurrences separator out = List.length args - 1.
Proof.
  intros Hrs Hsp. exists (shown rs). split; [now apply dtex_ok|].
  rewrite <- (renderings_length _ _ Hrs).
  destruct rs as [|r rs]; [reflexivity|].
  rewrite occurrences_shown by exact Hsp. cbn [List.length]. lia.
Qed.

(** X3: when every conversion succeeds and the display raises on the markup
    it is given, that exception escapes from the call; the display was
    entered once, with that markup. *)
Theorem dtex_display_failure
    (args : list arg) (rs : list string) (tex : string) (e : Exn)
    (log : list event) :
  renderings args = Some rs ->
  displayed (run_dtex args) = [tex] ->
  display_raises tex = Some e ->
  dtex args log = (Raised e, (log ++ [DisplayLatex tex])%list).
Proof.
  intros Hrs Htex He.
  rewrite (displayed_ok _ _ Hrs) in Htex. inversion Htex; subst tex.
  rewrite (dtex_ok _ _ _ Hrs). unfold display_outcome. now rewrite He.
Qed.

(** X4: whatever the arguments, a call keeps the earlier entries of the log
    and adds at most one; it adds none exactly when some conversion
    fails. *)
Theorem dtex_log_frame (args : list arg) (log : list event) :
  exists added,
    snd (dtex args log) = (log ++ added)%list
    /\ List.length added <= 1
    /\ (added = [] <-> renderings args = None).
Proof.
  destruct (renderings_or_failure args) as [[rs [Hrs _]]|[e [Hnone He]]].
  - exists [DisplayLatex (shown rs)]. rewrite (dtex_ok _ _ _ Hrs).
    split; [reflexivity|]. split; [simpl; lia|].
    rewrite Hrs. split; discriminate.
  - exists []. rewrite (dtex_raises _ _ _ He), Hnone.
    split; [now rewrite app_nil_r|]. split; [simpl; lia|]. now split.
Qed.

(** X5: when every conversion succeeds, from whatever notebook the call
    is made, the markup handed to [display] is empty only for a call
    without arguments, and for such a call it is. *)
Theorem dtex_empty_markup_iff
    (args : list arg) (rs : list string) (log : list event) :
  renderings args = Some rs ->
  exists out,
    dtex args log = (display_outcome out, (log ++ [DisplayLatex out])%list)
    /\ (out = "" <-> args = []).
Proof.
  intros Hrs. exists (shown rs). split; [now apply dtex_ok|]. split.
  - intros Hshown. apply (f_equal String.length) in Hshown.
    unfold shown in Hshown.
    rewrite length_slice_until_neg, length_appended in Hshown.
    rewrite (renderings_length _ _ Hrs) in Hshown.
    destruct args as [|a args]; [reflexivity|].
    cbn [List.length String.length] in Hshown. lia.
  - intros ->. simpl in Hrs. now inversion Hrs.
Qed.

Lemma dtex_loop_preconverted
    (pre post : list arg) (o : Obj) (m : string) :
  mlatex o = inr m ->
  forall tex log,
    dtex_loop (pre ++ PyOther o :: post) tex log
    = dtex_loop (pre ++ PyText m :: post) tex log.
Proof.
  intros Ho. induction pre as [|a pre IH]; intros tex log.
  - cbn [app dtex_loop dtex_piece]. unfold bind, call_mlatex.
    rewrite Ho. reflexivity.
  - cbn [app dtex_loop]. unfold bind.
    destruct (dtex_piece a log) as [[piece|e] log']; [apply IH | reflexivity].
Qed.

(** X6: passing the text the converter gives for a value in place of the
    value changes nothing: the call ends the same way with the same log,
    whatever the other arguments are. *)
Theorem dtex_preconverted
    (pre post : list arg) (o : Obj) (m : string) (log : list event) :
  mlatex o = inr m ->
  dtex (pre ++ PyOther o :: post) log = dtex (pre ++ PyText m :: post) log.
Proof.
  intros Ho. unfold dtex, bind.
  now rewrite (dtex_loop_preconverted pre post o m Ho).
Qed.

Lemma shown_app (rs1 rs2 : list string) :
  rs2 <> [] -> shown (rs1 ++ rs2) = appended rs1 ++ shown rs2.
Proof.
  destruct rs2 as [|r rq]; [congruence|]. intros _.
  rewrite shown_middle.
  change (shown (r :: rq)) with (shown ([] ++ r :: rq)%list).
  now rewrite (shown_middle [] r rq).
Qed.

(** X7: a call on two runs of arguments, the second not empty, hands to
    [display] the text the loop builds for the first run, untrimmed,
    followed by the markup a call on the second run alone hands to it,
    from whatever notebooks the two calls are made. *)
Theorem dtex_split_call
    (args1 args2 : list arg) (rs1 rs2 : list string)
    (log log2 : list event) :
  renderings args1 = Some rs1 ->
  renderings args2 = Some rs2 ->
  args2 <> [] ->
  exists tex1 out2,
    dtex_loop args1 "" log = (Returned tex1, log)
    /\ dtex args2 log2
       = (display_outcome out2, (log2 ++ [DisplayLatex out2])%list)
    /\ dtex (args1 ++ args2) log
       = (display_outcome (tex1 ++ out2),
          (log ++ [DisplayLatex (tex1 ++ out2)])%list).
Proof.
  intros H1 H2 Hne. exists (appended rs1), (shown rs2). split; [|split].
  - now rewrite (dtex_loop_ok _ _ _ _ H1).
  - now apply dtex_ok.
  - rewrite (dtex_ok _ _ _ (renderings_app _ _ _ _ H1 H2)).
    rewrite shown_app; [reflexivity|].
    exact (renderings_nonempty _ _ Hne H2).
Qed.

Lemma shown_injective (rs : list string) :
  forall rs',
    forallb (PyStr.lacks "$") rs = true ->
    forallb (PyStr.lacks "$") rs' = true ->
    shown rs = shown rs' -> rs = rs'.
Proof.
  induction rs as [|r rs IH]; intros [|r' rs'] Hrs Hrs' Heq.
  - reflexivity.
  - rewrite shown_cons_head in Heq. discriminate Heq.
  - rewrite shown_cons_head in Heq. discriminate Heq.
  - rewrite !shown_cons_head in Heq. inversion Heq as [Htail]. clear Heq.
    cbn [forallb] in Hrs, Hrs'.
    apply andb_prop in Hrs. apply andb_prop in Hrs'.
    destruct Hrs as [Hr Hrs]. destruct Hrs' as [Hr' Hrs'].
    destruct (closing_delimiter_found _ _ _ _ Hr Hr' Htail) as [-> Hafter].
    f_equal. apply IH; [exact Hrs | exact Hrs' |].
    destruct rs as [|x rs]; destruct rs' as [|x' rs'];
      unfold after_fragment in Hafter.
    + reflexivity.
    + unfold separator in Hafter. cbn [append] in Hafter. discriminate Hafter.
    + unfold separator in Hafter. cbn [append] in Hafter. discriminate Hafter.
    + now apply str_app_inv_head in Hafter.
Qed.

(** X8: two calls whose renderings hold no dollar sign, from whatever
    notebooks they are made, each hand a markup to [display], and the
    two markups are the same only if the renderings are the same, term
    by term: the markup tells how many terms there were and what each
    one was. *)
Theorem dtex_markup_injective
    (args args' : list arg) (rs rs' : list string)
    (log log' : list event) :
  renderings args = Some rs ->
  renderings args' = Some rs' ->
  forallb (PyStr.lacks "$") rs = true ->
  forallb (PyStr.lacks "$") rs' = true ->
  exists tex tex',
    dtex args log = (display_outcome tex, (log ++ [DisplayLatex tex])%list)
    /\ dtex args' log'
       = (display_outcome tex', (log' ++ [DisplayLatex tex'])%list)
    /\ (tex = tex' -> rs = rs').
Proof.
  intros Hrs Hrs' Hd Hd'. exists (shown rs), (shown rs').
  split; [now apply dtex_ok|]. split; [now apply dtex_ok|].
  now apply shown_injective.
Qed.

(** X9: with renderings that hold no dollar sign, from whatever notebook
    the call is made, the markup handed to [display] holds two dollar
    signs for each term and two for each separator between terms, so
    they pair up. *)
Theorem dtex_delimiter_count
    (args : list arg) (rs : list string) (log : list event) :
  renderings args = Some rs ->
  forallb (PyStr.lacks "$") rs = true ->
  exists out,
    dtex args log = (display_outcome out, (log ++ [DisplayLatex out])%list)
    /\ PyStr.occurrences "$" out = 4 * List.length args - 2.
Proof.
  intros Hrs Hd. exists (shown rs). split; [now apply dtex_ok|].
  rewrite <- (renderings_length _ _ Hrs).
  destruct rs as [|r rs]; [reflexivity|].
  rewrite occurrences_dollar_after by exact Hd. cbn [List.length]. lia.
Qed.

End Dtex.

Arguments arg : clear implicits.
Arguments outcome : clear implicits.
Arguments M : clear implicits.
Arguments Returned {Exn A} a.
Arguments Raised {Exn A} e.

(** ** The properties on the concrete notebook *)

Lemma dtex_joined_then_space_witness :
  let args := [PyText "a"; PyOther (Demo.Sym "x")] in
  args <> []
  /\ renderings Demo.mlatex args = Some ["a"; "x"]
  /\ displayed (run_dtex Demo.mlatex Demo.display_raises args)
     = [equation ["a"; "x"] ++ " "]
  /\ displayed (run_dtex Demo.mlatex Demo.display_raises args)
     <> [equation ["a"; "x"]].
Proof.
  intros args.
  assert (Hne : args <> []) by discriminate.
  assert (Hrs : renderings Demo.mlatex args = Some ["a"; "x"])
    by reflexivity.
  split; [exact Hne|]. split; [exact Hrs|].
  exact (dtex_joined_then_space Demo.mlatex Demo.display_raises
           args ["a"; "x"] Hne Hrs).
Defined.

(** C3, as stated, fails: for the lone text argument "a" the displayed
    string is the fragment and one space, so it is not a string that has
    lost characters of the fragment. *)
Lemma dtex_single_text_not_corrupted :
  displayed (run_dtex Demo.mlatex Demo.display_raises [PyText "a"])
  = ["$a$ "]
  /\ ~ (exists out,
         displayed (run_dtex Demo.mlatex Demo.display_raises [PyText "a"])
         = [out]
         /\ prefix (fragment "a") out = false).
Proof.
  split; [reflexivity|].
  intros [out [Hout Hlost]].
  vm_compute in Hout. inversion Hout; subst out.
  vm_compute in Hlost. discriminate Hlost.
Qed.

(** C4, as stated, fails: with the text of the equals sign as the second
    of three arguments, the string handed to [display] holds the text of
    the separator three times, not two; and a three-argument call whose
    second argument spells two terms with a separator between them
    displays exactly what a four-argument call displays, so the string
    does not hold exactly three delimited fragments either. *)
Lemma dtex_three_args_not_two_separators :
  (exists out,
      dtex Demo.mlatex Demo.display_raises
        [PyText "a"; PyText "\, = \,"; PyText "c"] []
      = (Returned PyNone, [DisplayLatex out])
      /\ PyStr.occurrences separator out = 3
      /\ PyStr.occurrences separator out <> 2)
  /\ dtex Demo.mlatex Demo.display_raises
       [PyText "a"; PyText "x$ $\, = \,$ $y"; PyText "c"] []
     = dtex Demo.mlatex Demo.display_raises
         [PyText "a"; PyText "x"; PyText "y"; PyText "c"] [].
Proof.
  split; [|reflexivity].
  exists "$a$ $\, = \,$ $\, = \,$ $\, = \,$ $c$ ".
  split; [reflexivity|]. split; [reflexivity|].
  intros H. vm_compute in H. discriminate H.
Qed.

Lemma dtex_three_args_witness :
  let a := PyText "\boldsymbol{r}" in
  let b := PyOther (Demo.Sym "x + y") in
  let c := PyText "c" in
  let log := [DisplayLatex "$earlier$ "] in
  renderings Demo.mlatex [a; b; c] = Some ["\boldsymbol{r}"; "x + y"; "c"]
  /\ forallb (PyStr.lacks "$") ["\boldsymbol{r}"; "x + y"; "c"] = true
  /\ "x + y" <> equals_sign
  /\ "c" <> equals_sign
  /\ exists out,
       dtex Demo.mlatex Demo.display_raises [a; b; c] log
       = (Returned PyNone, (log ++ [DisplayLatex out])%list)
       /\ out = "$\boldsymbol{r}$ $\, = \,$ $x + y$ $\, = \,$ $c$ "
       /\ PyStr.occurrences separator out = 2
       /\ PyStr.occurrences "$" out = 10.
Proof.
  intros a b c log.
  assert (Hrs : renderings Demo.mlatex [a; b; c]
                = Some ["\boldsymbol{r}"; "x + y"; "c"]) by reflexivity.
  assert (Hd : forallb (PyStr.lacks "$") ["\boldsymbol{r}"; "x + y"; "c"]
               = true) by reflexivity.
  assert (Hb : "x + y" <> equals_sign) by discriminate.
  assert (Hc : "c" <> equals_sign) by discriminate.
  split; [exact Hrs|]. split; [exact Hd|]. split; [exact Hb|].
  split; [exact Hc|].
  destruct (dtex_three_args Demo.mlatex Demo.display_raises
              a b c _ _ _ log Hrs) as [out [Hrun [Hout Hcount]]].
  exists out. split; [exact Hrun|]. split; [exact Hout|].
  exact (Hcount Hd Hb Hc).
Defined.

Lemma dtex_no_args_witness :
  let log := [DisplayLatex "$earlier$ "] in
  Demo.display_raises "" = None
  /\ dtex Demo.mlatex Demo.display_raises [] log
     = (Returned PyNone, [DisplayLatex "$earlier$ "; DisplayLatex ""]).
Proof.
  intros log. split; [reflexivity|].
  exact (proj2 (proj2 (proj2
           (dtex_no_args Demo.mlatex Demo.display_raises log))) eq_refl).
Defined.

Lemma dtex_text_argument_witness :
  let pre := [PyOther (Demo.Sym "x")] in
  let post := [PyText "c"] in
  let log := [DisplayLatex "$earlier$ "] in
  renderings Demo.mlatex pre = Some ["x"]
  /\ renderings Demo.mlatex post = Some ["c"]
  /\ exists out,
       dtex Demo.mlatex Demo.display_raises
         (pre ++ PyText "\boldsymbol{r}" :: post)%list log
       = (Returned PyNone, (log ++ [DisplayLatex out])%list)
       /\ out = "$x$ $\, = \,$ $\boldsymbol{r}$ $\, = \,$ $c$ ".
Proof.
  intros pre post log.
  assert (Hp : renderings Demo.mlatex pre = Some ["x"]) by reflexivity.
  assert (Hq : renderings Demo.mlatex post = Some ["c"]) by reflexivity.
  split; [exact Hp|]. split; [exact Hq|].
  exact (dtex_text_argument Demo.mlatex Demo.display_raises
           pre post "\boldsymbol{r}" ["x"] ["c"] log Hp Hq).
Defined.

Lemma dtex_symbolic_argument_witness :
  let pre := [PyText "\boldsymbol{r}"] in
  let post := @nil (arg Demo.sym) in
  let log := [DisplayLatex "$earlier$ "] in
  Demo.mlatex (Demo.Sym "x\mathbf{\hat{n}_x}") = inr "x\mathbf{\hat{n}_x}"
  /\ renderings Demo.mlatex pre = Some ["\boldsymbol{r}"]
  /\ renderings Demo.mlatex post = Some []
  /\ exists out,
       dtex Demo.mlatex Demo.display_raises
         (pre ++ PyOther (Demo.Sym "x\mathbf{\hat{n}_x}") :: post)%list log
       = (Returned PyNone, (log ++ [DisplayLatex out])%list)
       /\ out = "$\boldsymbol{r}$ $\, = \,$ $x\mathbf{\hat{n}_x}$ ".
Proof.
  intros pre post log.
  assert (Hp : renderings Demo.mlatex pre = Some ["\boldsymbol{r}"])
    by reflexivity.
  assert (Hq : renderings Demo.mlatex post = Some []) by reflexivity.
  split; [reflexivity|]. split; [exact Hp|]. split; [exact Hq|].
  exact (dtex_symbolic_argument Demo.mlatex Demo.display_raises
           pre post (Demo.Sym "x\mathbf{\hat{n}_x}") "x\mathbf{\hat{n}_x}"
           ["\boldsymbol{r}"] [] log eq_refl Hp Hq).
Defined.

Lemma dtex_conversion_failure_witness :
  let pre := [PyText "a"; PyOther (Demo.Sym "x")] in
  let post := [PyText "c"] in
  Demo.mlatex Demo.Unprintable = inl "no printer"
  /\ exists e',
       first_failure Demo.mlatex (pre ++ PyOther Demo.Unprintable :: post)
       = Some e'
       /\ dtex Demo.mlatex Demo.display_raises
            (pre ++ PyOther Demo.Unprintable :: post) [] = (Raised e', [])
       /\ displayed (run_dtex Demo.mlatex Demo.display_raises
                       (pre ++ PyOther Demo.Unprintable :: post)) = []
       /\ (renderings Demo.mlatex pre <> None -> e' = "no printer").
Proof.
  intros pre post. split; [reflexivity|].
  exact (dtex_conversion_failure Demo.mlatex Demo.display_raises
           pre post Demo.Unprintable "no printer" [] eq_refl).
Defined.

Lemma dtex_displays_once_witness :
  let args := [PyText "a"; PyOther (Demo.Sym "x")] in
  renderings Demo.mlatex args = Some ["a"; "x"]
  /\ exists tex,
       snd (dtex Demo.mlatex Demo.display_raises args [])
       = [DisplayLatex tex]
       /\ fst (dtex Demo.mlatex Demo.display_raises args [])
          = display_outcome Demo.display_raises tex
       /\ (Demo.display_raises tex = None ->
           fst (dtex Demo.mlatex Demo.display_raises args [])
           = Returned PyNone).
Proof.
  intros args.
  assert (Hrs : renderings Demo.mlatex args = Some ["a"; "x"])
    by reflexivity.
  split; [exact Hrs|].
  exact (dtex_displays_once Demo.mlatex Demo.display_raises
           args ["a"; "x"] [] Hrs).
Defined.

Lemma dtex_one_trailing_space_witness :
  let args := [PyText "a"] in
  let log := [DisplayLatex "$earlier$ "] in
  args <> []
  /\ renderings Demo.mlatex args = Some ["a"]
  /\ dtex Demo.mlatex Demo.display_raises args log
     = (Returned PyNone, [DisplayLatex "$earlier$ "; DisplayLatex "$a$ "]).
Proof.
  intros args log.
  assert (Hne : args <> []) by discriminate.
  assert (Hrs : renderings Demo.mlatex args = Some ["a"]) by reflexivity.
  split; [exact Hne|]. split; [exact Hrs|].
  exact (proj1 (proj2 (proj2 (dtex_one_trailing_space
           Demo.mlatex Demo.display_raises args ["a"] log Hne Hrs)))).
Defined.

Lemma dtex_markup_length_witness :
  let args := [PyText "\boldsymbol{r}"; PyOther (Demo.Sym "x")] in
  let log := [DisplayLatex "$earlier$ "] in
  renderings Demo.mlatex args = Some ["\boldsymbol{r}"; "x"]
  /\ exists out,
       dtex Demo.mlatex Demo.display_raises args log
       = (Returned PyNone, (log ++ [DisplayLatex out])%list)
       /\ String.length out = 14 + 1 + 13 * 2 - 10.
Proof.
  intros args log.
  assert (Hrs : renderings Demo.mlatex args = Some ["\boldsymbol{r}"; "x"])
    by reflexivity.
  split; [exact Hrs|].
  exact (dtex_markup_length Demo.mlatex Demo.display_raises args _ log Hrs).
Defined.

Lemma dtex_separator_count_witness :
  let args := [PyText "a"; PyOther (Demo.Sym "b"); PyText "c";
               PyText "d"] in
  let log := [DisplayLatex "$earlier$ "] in
  renderings Demo.mlatex args = Some ["a"; "b"; "c"; "d"]
  /\ forallb (PyStr.lacks " ") ["a"; "b"; "c"; "d"] = true
  /\ exists out,
       dtex Demo.mlatex Demo.display_raises args log
       = (Returned PyNone, (log ++ [DisplayLatex out])%list)
       /\ PyStr.occurrences separator out = 3.
Proof.
  intros args log.
  assert (Hrs : renderings Demo.mlatex args = Some ["a"; "b"; "c"; "d"])
    by reflexivity.
  assert (Hsp : forallb (PyStr.lacks " ") ["a"; "b"; "c"; "d"] = true)
    by reflexivity.
  split; [exact Hrs|]. split; [exact Hsp|].
  exact (dtex_separator_count Demo.mlatex Demo.display_raises
           args _ log Hrs Hsp).
Defined.

Lemma dtex_display_failure_witness :
  let args := [PyText "a"; PyOther (Demo.Sym "x")] in
  renderings Demo.mlatex args = Some ["a"; "x"]
  /\ displayed (run_dtex Demo.mlatex Demo.display_unavailable args)
     = ["$a$ $\, = \,$ $x$ "]
  /\ Demo.display_unavailable "$a$ $\, = \,$ $x$ " = Some "no output context"
  /\ dtex Demo.mlatex Demo.display_unavailable args []
     = (Raised "no output context", [DisplayLatex "$a$ $\, = \,$ $x$ "]).
Proof.
  intros args.
  assert (Hrs : renderings Demo.mlatex args = Some ["a"; "x"])
    by reflexivity.
  assert (Hout : displayed (run_dtex Demo.mlatex Demo.display_unavailable args)
                 = ["$a$ $\, = \,$ $x$ "]) by reflexivity.
  split; [exact Hrs|]. split; [exact Hout|]. split; [reflexivity|].
  exact (dtex_display_failure Demo.mlatex Demo.display_unavailable
           args _ _ "no output context" [] Hrs Hout eq_refl).
Defined.

Lemma dtex_empty_markup_iff_witness :
  let args := [PyText ""] in
  let log := [DisplayLatex "$earlier$ "] in
  renderings Demo.mlatex args = Some [""]
  /\ exists out,
       dtex Demo.mlatex Demo.display_raises args log
       = (Returned PyNone, (log ++ [DisplayLatex out])%list)
       /\ (out = "" <-> args = []).
Proof.
  intros args log.
  assert (Hrs : renderings Demo.mlatex args = Some [""]) by reflexivity.
  split; [exact Hrs|].
  exact (dtex_empty_markup_iff Demo.mlatex Demo.display_raises
           args _ log Hrs).
Defined.

Lemma dtex_preconverted_witness :
  let pre := [PyText "a"; PyOther Demo.Unprintable] in
  let post := [PyText "c"] in
  Demo.mlatex (Demo.Sym "x") = inr "x"
  /\ dtex Demo.mlatex Demo.display_raises
       (pre ++ PyOther (Demo.Sym "x") :: post) []
     = dtex Demo.mlatex Demo.display_raises
         (pre ++ PyText "x" :: post) [].
Proof.
  intros pre post. split; [reflexivity|].
  exact (dtex_preconverted Demo.mlatex Demo.display_raises
           pre post (Demo.Sym "x") "x" [] eq_refl).
Defined.

Lemma dtex_split_call_witness :
  let args1 := [PyText "a"] in
  let args2 := [PyOther (Demo.Sym "b"); PyText "c"] in
  let log := [DisplayLatex "$earlier$ "] in
  let log2 := [DisplayLatex "$other$ "; DisplayLatex "$session$ "] in
  renderings Demo.mlatex args1 = Some ["a"]
  /\ renderings Demo.mlatex args2 = Some ["b"; "c"]
  /\ args2 <> []
  /\ exists tex1 out2,
       dtex_loop Demo.mlatex args1 "" log = (Returned tex1, log)
       /\ dtex Demo.mlatex Demo.display_raises args2 log2
          = (Returned PyNone, (log2 ++ [DisplayLatex out2])%list)
       /\ dtex Demo.mlatex Demo.display_raises (args1 ++ args2)%list log
          = (Returned PyNone,
             (log ++ [DisplayLatex (tex1 ++ out2)])%list).
Proof.
  intros args1 args2 log log2.
  assert (H1 : renderings Demo.mlatex args1 = Some ["a"]) by reflexivity.
  assert (H2 : renderings Demo.mlatex args2 = Some ["b"; "c"])
    by reflexivity.
  assert (Hne : args2 <> []) by discriminate.
  split; [exact H1|]. split; [exact H2|]. split; [exact Hne|].
  exact (dtex_split_call Demo.mlatex Demo.display_raises
           args1 args2 _ _ log log2 H1 H2 Hne).
Defined.

Lemma dtex_markup_injective_witness :
  let args := [PyText "a"; PyOther (Demo.Sym "x")] in
  let args' := [PyOther (Demo.Sym "a"); PyText "y"] in
  let log := [DisplayLatex "$earlier$ "] in
  let log' := @nil event in
  renderings Demo.mlatex args = Some ["a"; "x"]
  /\ renderings Demo.mlatex args' = Some ["a"; "y"]
  /\ forallb (PyStr.lacks "$") ["a"; "x"] = true
  /\ forallb (PyStr.lacks "$") ["a"; "y"] = true
  /\ exists tex tex',
       dtex Demo.mlatex Demo.display_raises args log
       = (Returned PyNone, (log ++ [DisplayLatex tex])%list)
       /\ dtex Demo.mlatex Demo.display_raises args' log'
          = (Returned PyNone, (log' ++ [DisplayLatex tex'])%list)
       /\ (tex = tex' -> ["a"; "x"] = ["a"; "y"]).
Proof.
  intros args args' log log'.
  assert (Hrs : renderings Demo.mlatex args = Some ["a"; "x"])
    by reflexivity.
  assert (Hrs' : renderings Demo.mlatex args' = Some ["a"; "y"])
    by reflexivity.
  assert (Hd : forallb (PyStr.lacks "$") ["a"; "x"] = true) by reflexivity.
  assert (Hd' : forallb (PyStr.lacks "$") ["a"; "y"] = true) by reflexivity.
  split; [exact Hrs|]. split; [exact Hrs'|]. split; [exact Hd|].
  split; [exact Hd'|].
  exact (dtex_markup_injective Demo.mlatex Demo.display_raises
           args args' _ _ log log' Hrs Hrs' Hd Hd').
Defined.

Lemma dtex_delimiter_count_witness :
  let args := [PyText "a"; PyOther (Demo.Sym "b"); PyText "c"] in
  let log := [DisplayLatex "$earlier$ "] in
  renderings Demo.mlatex args = Some ["a"; "b"; "c"]
  /\ forallb (PyStr.lacks "$") ["a"; "b"; "c"] = true
  /\ exists out,
       dtex Demo.mlatex Demo.display_raises args log
       = (Returned PyNone, (log ++ [DisplayLatex out])%list)
       /\ PyStr.occurrences "$" out = 10.
Proof.
  intros args log.
  assert (Hrs : renderings Demo.mlatex args = Some ["a"; "b"; "c"])
    by reflexivity.
  assert (Hd : forallb (PyStr.lacks "$") ["a"; "b"; "c"] = true)
    by reflexivity.
  split; [exact Hrs|]. split; [exact Hd|].
  exact (dtex_delimiter_count Demo.mlatex Demo.display_raises
           args _ log Hrs Hd).
Defined.
